(** * github-slack-bot: the execution entrypoint [main.py]

    A shallow embedding of the two request handlers of [main.py]
    ([manage_github_events], [manage_slack_commands]) and of the start-up
    expression that sizes the audit log, followed by models of the
    collaborators the entrypoint imports ([GitHubPayloadParser], [SlackBot],
    [Logger]) and by the properties stated about them. *)

From Stdlib Require Import ZArith Lia Ascii String.
From stdpp Require Import base option list strings gmap pretty.

Set Warnings "-register-all".
Local Open Scope string_scope.

(** ** Python values and faults *)

(** Structured data as [request.json] hands it over. [JNull] is Python's
    [None]. *)
Inductive json : Type :=
| JNull
| JBool (b : bool)
| JNum (n : Z)
| JStr (s : string)
| JArr (items : list json)
| JObj (fields : list (string * json)).

(** The exceptions that can travel through the entrypoint. *)
Inductive fault : Type :=
| KeyError (key : string)
| ValueError (text : string)
| HTTPError (status : Z) (text : string)
| OtherFault (name : string).

(** A Python call either returns a value or raises. *)
Inductive outcome (A : Type) : Type :=
| Returns (a : A)
| Raises (f : fault).
Arguments Returns {A} a.
Arguments Raises {A} f.

Definition outcome_bind {A B : Type} (o : outcome A) (k : A -> outcome B) : outcome B :=
  match o with
  | Returns a => k a
  | Raises f => Raises f
  end.

(** ** The request object of the web framework *)

(** What the body of a request looks like to [request.json]. *)
Inductive body : Type :=
| NotJson                (* no JSON content type, or an empty body *)
| InvalidJson            (* JSON content type, text that does not decode *)
| Json (j : json).

(** A multi-dict of form fields: order and repeated keys are kept. *)
Abbreviation FormsDict := (list (string * string)).

Record Request : Type := {
  headers : gmap string string;
  payload : body;
  forms : FormsDict
}.

(** [request.headers[key]]: a missing header is a [KeyError]. *)
Definition headers_getitem (req : Request) (key : string) : outcome string :=
  match headers req !! key with
  | Some v => Returns v
  | None => Raises (KeyError key)
  end.

(** [request.json]: [None] when the body is not JSON, a 400 when it does
    not decode. *)
Definition request_json (req : Request) : outcome json :=
  match payload req with
  | NotJson => Returns JNull
  | InvalidJson => Raises (HTTPError 400 "Invalid JSON")
  | Json j => Returns j
  end.

(** The status line the framework answers with: 200 for a handler that
    returns, the error's own status for an [HTTPError], 500 for any other
    fault that leaves the handler. *)
Definition transport_status {A : Type} (o : outcome A) : Z :=
  match o with
  | Returns _ => 200
  | Raises (HTTPError s _) => s
  | Raises _ => 500
  end.

(** ** The handlers of [main.py] *)

Section Transport.

(** [Event] is [GitHubEvent], [Dict] is the reply [dict[str, Any]] and
    [World] is whatever the global [bot] owns and talks to. *)
Context {Event Dict World : Type}.

(** [GitHubPayloadParser.parse(event_type=..., raw_json=...)]. *)
Variable parse : string -> json -> outcome (option Event).
(** [bot.inform(event)]. *)
Variable inform : Event -> World -> World * outcome unit.
(** [bot.run(raw_json=...)]. *)
Variable run : FormsDict -> World -> World * outcome (option Dict).

(** The calls a handler makes on its collaborators, in the order made. *)
Inductive call : Type :=
| CallParse (event_type : string) (raw_json : json)
| CallInform (event : Event)
| CallRun (raw_json : FormsDict).

(** A handler threads the world and the list of calls made so far, and
    stops at the first fault. *)
Definition handler (A : Type) : Type :=
  World * list call -> (World * list call) * outcome A.

Definition ret {A : Type} (a : A) : handler A :=
  fun s => (s, Returns a).

Definition bind {A B : Type} (m : handler A) (k : A -> handler B) : handler B :=
  fun s =>
    match m s with
    | (s', Returns a) => k a s'
    | (s', Raises f) => (s', Raises f)
    end.

Definition lift {A : Type} (o : outcome A) : handler A :=
  fun s => (s, o).

Definition calling (c : call) : handler unit :=
  fun s => ((s.1, (s.2 ++ [c])%list), Returns tt).

Definition on_world {A : Type} (f : World -> World * outcome A) : handler A :=
  fun s => let r := f s.1 in ((r.1, s.2), r.2).

Local Notation "'let*' x ':=' m 'in' k" := (bind m (fun x => k))
  (at level 10, x name, m at level 100, k at level 200).
Local Notation "m '>>' k" := (bind m (fun _ => k))
  (at level 100, k at level 200, right associativity).

Definition GitHubPayloadParser_parse (event_type : string) (raw_json : json)
  : handler (option Event) :=
  calling (CallParse event_type raw_json) >> lift (parse event_type raw_json).

Definition bot_inform (event : Event) : handler unit :=
  calling (CallInform event) >> on_world (inform event).

Definition bot_run (raw_json : FormsDict) : handler (option Dict) :=
  calling (CallRun raw_json) >> on_world (run raw_json).

(** [@post("/github/events")]. The keyword arguments are evaluated left to
    right, so the header is looked up before the body is decoded; the
    function has no [return], so it returns [None]. *)
Definition manage_github_events (req : Request) : handler (option Dict) :=
  let* event_type := lift (headers_getitem req "X-GitHub-Event") in
  let* raw_json := lift (request_json req) in
  let* event := GitHubPayloadParser_parse event_type raw_json in
  match event with
  | Some e => bot_inform e >> ret None
  | None => ret None
  end.

(** [@post("/slack/commands")]. *)
Definition manage_slack_commands (req : Request) : handler (option Dict) :=
  let* response := bot_run (forms req) in
  ret response.

End Transport.

Arguments call : clear implicits.
Arguments handler : clear implicits.

(** ** Start-up: the capacity of the audit log *)

(** The two kinds of value that meet in
    [os.environ["LOG_LAST_N_COMMANDS"] or 100]. *)
Inductive pyval : Type :=
| PyStr (s : string)
| PyInt (n : Z).

(** Python truthiness: the empty string and zero are false. *)
Definition truthy (v : pyval) : bool :=
  match v with
  | PyStr s => negb (String.eqb s "")
  | PyInt n => negb (n =? 0)%Z
  end.

(** [a or b] gives [a] when it is truthy and [b] otherwise. *)
Definition py_or (a b : pyval) : pyval :=
  if truthy a then a else b.

(** White space as [int] strips it (ASCII range). *)
Definition is_space (c : ascii) : bool :=
  let n := nat_of_ascii c in
  ((9 <=? n)%nat && (n <=? 13)%nat) || ((28 <=? n)%nat && (n <=? 32)%nat).

Definition is_digit (c : ascii) : bool :=
  let n := nat_of_ascii c in (48 <=? n)%nat && (n <=? 57)%nat.

Definition digit_value (c : ascii) : Z :=
  Z.of_nat (nat_of_ascii c - 48).

Fixpoint lstrip (s : string) : string :=
  match s with
  | String c s' => if is_space c then lstrip s' else s
  | EmptyString => EmptyString
  end.

Definition strip (s : string) : string :=
  String.rev (lstrip (String.rev (lstrip s))).

(** Decimal digits, a single underscore allowed between two digits.
    [after_digit] tells whether the previous character was a digit. *)
Fixpoint decimal (acc : Z) (after_digit : bool) (s : string) : option Z :=
  match s with
  | EmptyString => if after_digit then Some acc else None
  | String c s' =>
      if is_digit c then decimal (10 * acc + digit_value c)%Z true s'
      else if Ascii.eqb c "_" then
        if after_digit then decimal acc false s' else None
      else None
  end.

Definition signed_decimal (s : string) : option Z :=
  match s with
  | String "-" s' => Z.opp <$> decimal 0 false s'
  | String "+" s' => decimal 0 false s'
  | _ => decimal 0 false s
  end.

(** [int(v)] in base ten: an [int] is returned as it is, a string is
    stripped and read as an optionally signed decimal numeral, anything
    else is a [ValueError]. *)
Definition py_int (v : pyval) : outcome Z :=
  match v with
  | PyInt n => Returns n
  | PyStr s =>
      match signed_decimal (strip s) with
      | Some n => Returns n
      | None => Raises (ValueError "invalid literal for int() with base 10")
      end
  end.

(** [os.environ[key]]. *)
Definition environ_getitem (environ : gmap string string) (key : string)
  : outcome string :=
  match environ !! key with
  | Some v => Returns v
  | None => Raises (KeyError key)
  end.

(** [int(os.environ["LOG_LAST_N_COMMANDS"] or 100)], the argument of
    [Logger(...)] in the [__main__] block. *)
Definition log_last_n_commands (environ : gmap string string) : outcome Z :=
  outcome_bind (environ_getitem environ "LOG_LAST_N_COMMANDS")
    (fun v => py_int (py_or (PyStr v) (PyInt 100))).

(** ** The event model ([bot.models.github.event]) *)

(** Modelled from the spec: the module [bot.models.github.event] is not
    part of the sources at hand. One tag per supported kind of
    source-platform event. *)
Inductive EventKind : Type :=
| Push
| PullRequest
| Issue
| Release
| WorkflowRun.

(** Modelled from the spec: [GitHubEvent] (module
    [bot.models.github.event], not part of the sources at hand), a tagged
    union whose every variant carries the normalized fields the notifier
    needs: actor, repository, action verb, a human title and a canonical
    URL. *)
Record GitHubEvent : Type := {
  kind : EventKind;
  actor : string;
  repository : string;
  action : string;
  title : string;
  url : string
}.

(** ** The event parser ([bot.github.github_parsers]) *)

Module GitHubPayloadParser.

(** Modelled from the spec: the extraction routine of one supported event
    type (module [bot.github.github_parsers] is not part of the sources at
    hand): the variant it builds, the fixed paths it reads out of the raw
    payload, and the action sub-kinds the system reports on. *)
Record Extraction : Type := {
  variant : EventKind;
  actor_path : list string;
  repository_path : list string;
  action_path : list string;
  title_path : list string;
  url_path : list string;
  reported : list string
}.

(** Modelled from the spec: a key of a JSON object (first binding wins). *)
Fixpoint member (key : string) (fields : list (string * json)) : option json :=
  match fields with
  | [] => None
  | (k, v) :: rest => if String.eqb k key then Some v else member key rest
  end.

(** Modelled from the spec: reading one path out of the raw payload; a
    step through anything but an object with that key fails. *)
Fixpoint read (path : list string) (j : json) : option json :=
  match path with
  | [] => Some j
  | key :: path' =>
      match j with
      | JObj fields =>
          match member key fields with
          | Some j' => read path' j'
          | None => None
          end
      | _ => None
      end
  end.

(** Modelled from the spec: presence and type of a field are validated:
    it is there and it is text. *)
Definition text_at (path : list string) (j : json) : option string :=
  match read path j with
  | Some (JStr s) => Some s
  | _ => None
  end.

(** Modelled from the spec: a field that may not be empty in a constructed
    event (actor, repository, URL). *)
Definition filled_at (path : list string) (j : json) : option string :=
  match text_at path j with
  | Some s => if String.eqb s "" then None else Some s
  | None => None
  end.

(** Modelled from the spec: whether an action sub-kind is one the system
    reports on. *)
Definition reports (x : Extraction) (verb : string) : bool :=
  existsb (String.eqb verb) (reported x).

(** Modelled from the spec: one extraction routine: every required field
    is read and validated, and the event is built only for an action the
    system reports on. *)
Definition extract (x : Extraction) (raw_json : json) : option GitHubEvent :=
  a ← filled_at (actor_path x) raw_json;
  r ← filled_at (repository_path x) raw_json;
  verb ← text_at (action_path x) raw_json;
  t ← text_at (title_path x) raw_json;
  u ← filled_at (url_path x) raw_json;
  if reports x verb
  then Some {| kind := variant x; actor := a; repository := r;
               action := verb; title := t; url := u |}
  else None.

(** Modelled from the spec: [GitHubPayloadParser.parse(event_type,
    raw_json)] (not part of the sources at hand). The event type selects
    the extraction routine in a registry; an event type outside the
    registry is of no interest. The result is an [option]: the parser is a
    total, pure function of its two inputs and has no way to raise. *)
Definition parse (registry : gmap string Extraction)
    (event_type : string) (raw_json : json) : option GitHubEvent :=
  x ← registry !! event_type;
  extract x raw_json.

(** Modelled from the spec: a required field is missing when its path
    cannot be read out of the payload. *)
Definition missing_field (x : Extraction) (raw_json : json) : Prop :=
  read (actor_path x) raw_json = None \/
  read (repository_path x) raw_json = None \/
  read (action_path x) raw_json = None \/
  read (title_path x) raw_json = None \/
  read (url_path x) raw_json = None.

End GitHubPayloadParser.

(** ** The audit log ([bot.utils.log]) *)

(** Modelled from the spec: the success/error tag of an outcome summary. *)
Inductive OutcomeTag : Type :=
| Success
| Failure.

(** Modelled from the spec: [LogEntry] (module [bot.utils.log], not part
    of the sources at hand). *)
Record LogEntry : Type := {
  timestamp : Z;
  command_name : string;
  invoking_user : string;
  tag : OutcomeTag;
  summary : string
}.

(** Modelled from the spec: [Logger] (module [bot.utils.log], not part of
    the sources at hand), a ring buffer of fixed capacity [N]; [entries]
    holds the oldest entry first. *)
Record Logger : Type := {
  N : nat;
  entries : list LogEntry
}.

Module Log.

(** Modelled from the spec: [Logger(N)], an empty log of capacity [N]. *)
Definition new (capacity : nat) : Logger :=
  {| N := capacity; entries := [] |}.

(** Modelled from the spec: [record(entry)]: the entry is appended, and
    what exceeds the capacity is evicted from the oldest end. *)
Definition record (entry : LogEntry) (log : Logger) : Logger :=
  let es := (entries log ++ [entry])%list in
  {| N := N log; entries := drop (length es - N log) es |}.

(** Modelled from the spec: [recent()]: the entries, most recent first. *)
Definition recent (log : Logger) : list LogEntry :=
  rev (entries log).

(** Modelled from the spec: a sequence of [record] calls, in order. *)
Definition record_all (es : list LogEntry) (log : Logger) : Logger :=
  foldl (fun l e => record e l) log es.

End Log.

(** ** The bot ([bot.slack]): notifier and command dispatcher *)

Module SlackBot.

(** Modelled from the spec: how the chat platform answers one
    message-post operation. *)
Inductive Delivery : Type :=
| Delivered
| NetworkError
| RateLimited (retry_after : Z)
| InvalidChannel.

(** Modelled from the spec: a record handed to the telemetry
    collaborator. *)
Record Report : Type := {
  report_channel : string;
  report_failure : Delivery
}.

(** Modelled from the spec: what the bot owns and talks to (module
    [bot.slack] is not part of the sources at hand). [chat] is the chat
    platform: its answer to the n-th post, for a channel and a message. *)
Record World : Type := {
  chat : nat -> string -> string -> Delivery;
  attempts : nat;
  posted : list (string * string);
  telemetry : list Report;
  audit : Logger;
  now : Z
}.

(** Modelled from the spec: the four ways the bot's world changes. *)
Definition post_attempted (w : World) : World :=
  {| chat := chat w; attempts := S (attempts w); posted := posted w;
     telemetry := telemetry w; audit := audit w; now := now w |}.

Definition post_succeeded (channel message : string) (w : World) : World :=
  {| chat := chat w; attempts := attempts w;
     posted := (posted w ++ [(channel, message)])%list;
     telemetry := telemetry w; audit := audit w; now := now w |}.

Definition reported_failure (channel : string) (d : Delivery) (w : World) : World :=
  {| chat := chat w; attempts := attempts w; posted := posted w;
     telemetry := (telemetry w ++ [{| report_channel := channel;
                                      report_failure := d |}])%list;
     audit := audit w; now := now w |}.

Definition logged (entry : LogEntry) (w : World) : World :=
  {| chat := chat w; attempts := attempts w; posted := posted w;
     telemetry := telemetry w; audit := Log.record entry (audit w);
     now := now w |}.

(** Modelled from the spec: one message-post operation. *)
Definition chat_postMessage (channel message : string) (w : World)
  : Delivery * World :=
  (chat w (attempts w) channel message, post_attempted w).

(** Modelled from the spec: the message template, a pure function of the
    event: actor, action, title and URL. *)
Definition render (e : GitHubEvent) : string :=
  actor e ++ " " ++ action e ++ " " ++ title e ++ " " ++ url e.

(** Modelled from the spec: delivery to one channel. A failure is caught
    and reported to telemetry; on throttling there is one retry, never
    more. *)
Definition deliver (message : string) (w : World) (channel : string) : World :=
  match chat_postMessage channel message w with
  | (Delivered, w1) => post_succeeded channel message w1
  | (RateLimited _, w1) =>
      match chat_postMessage channel message w1 with
      | (Delivered, w2) => post_succeeded channel message w2
      | (d, w2) => reported_failure channel d w2
      end
  | (d, w1) => reported_failure channel d w1
  end.

(** Modelled from the spec: [inform(event)] (not part of the sources at
    hand). [mapping] is the read-only channel mapping; no channel for the
    repository means the event is dropped. Nothing is raised to the
    caller. *)
Definition inform (mapping : string -> EventKind -> list string)
    (e : GitHubEvent) (w : World) : World * outcome unit :=
  (foldl (deliver (render e)) w (mapping (repository e) (kind e)), Returns tt).

(** Modelled from the spec: [CommandRequest]. *)
Record CommandRequest : Type := {
  command : string;
  text : string;
  user_id : string;
  channel_id : string
}.

(** Modelled from the spec: a reply, or an error-kind response. *)
Inductive ResponseKind : Type :=
| Reply
| ErrorReply.

(** Modelled from the spec: a formatted message payload;
    [CommandResponse] is [option Message]. *)
Record Message : Type := {
  response_kind : ResponseKind;
  blocks : string
}.

(** Modelled from the spec: a command handler is given the argument
    string, the invoking user and the invoking channel. *)
Abbreviation Handler :=
  (string -> string -> string -> outcome (option Message)).

(** Modelled from the spec: the log entry of one invocation. *)
Definition entry_for (req : CommandRequest) (w : World)
    (t : OutcomeTag) (s : string) : LogEntry :=
  {| timestamp := now w; command_name := command req;
     invoking_user := user_id req; tag := t; summary := s |}.

(** Modelled from the spec: [run(command_request)] (not part of the
    sources at hand). The command name is looked up in a static registry;
    every invocation is logged before the response is returned; an unknown
    name is answered with an error message; a fault of the handler is
    caught and turned into an error response. *)
Definition run (registry : gmap string Handler) (req : CommandRequest)
    (w : World) : World * option Message :=
  match registry !! command req with
  | None =>
      (logged (entry_for req w Failure "unknown command") w,
       Some {| response_kind := ErrorReply;
               blocks := "Unknown command: " ++ command req |})
  | Some h =>
      match h (text req) (user_id req) (channel_id req) with
      | Returns (Some {| response_kind := ErrorReply; blocks := m |}) =>
          (logged (entry_for req w Failure m) w,
           Some {| response_kind := ErrorReply; blocks := m |})
      | Returns r => (logged (entry_for req w Success "ok") w, r)
      | Raises f =>
          (logged (entry_for req w Failure "handler fault") w,
           Some {| response_kind := ErrorReply;
                   blocks := "The command failed" |})
      end
  end.

(** [raw_json[key]] on a multi-dict: the last value it holds for the key. *)
Definition forms_get (key : string) (raw_json : FormsDict) : option string :=
  last (filter (fun kv => kv.1 = key) raw_json) ≫= fun kv => Some kv.2.

(** Following the spec's words: the four fields of a command request as
    extracted from the form-encoded request data (the names are those of
    the chat platform's slash-command form). *)
Definition extracted_fields (raw_json : FormsDict)
  : option string * option string * option string * option string :=
  (forms_get "command" raw_json, forms_get "text" raw_json,
   forms_get "user_id" raw_json, forms_get "channel_id" raw_json).

End SlackBot.

(** ** The webhook endpoint wired to the modelled parser and notifier *)

Definition webhook (registry : gmap string GitHubPayloadParser.Extraction)
    (mapping : string -> EventKind -> list string) (req : Request)
  : handler GitHubEvent SlackBot.World (option SlackBot.Message) :=
  manage_github_events
    (fun event_type raw_json =>
       Returns (GitHubPayloadParser.parse registry event_type raw_json))
    (SlackBot.inform mapping) req.

(** ** Sample data: a registry, payloads and requests *)

Module Examples.

Definition pull_request_routine : GitHubPayloadParser.Extraction :=
  {| GitHubPayloadParser.variant := PullRequest;
     GitHubPayloadParser.actor_path := ["sender"; "login"];
     GitHubPayloadParser.repository_path := ["repository"; "full_name"];
     GitHubPayloadParser.action_path := ["action"];
     GitHubPayloadParser.title_path := ["pull_request"; "title"];
     GitHubPayloadParser.url_path := ["pull_request"; "html_url"];
     GitHubPayloadParser.reported := ["opened"; "closed"] |}.

Definition registry : gmap string GitHubPayloadParser.Extraction :=
  {[ "pull_request" := pull_request_routine ]}.

Definition pull_request_payload (verb : string) : json :=
  JObj [("action", JStr verb);
        ("pull_request",
         JObj [("title", JStr "Fix typo");
               ("html_url", JStr "https://github.com/octo/repo/pull/1")]);
        ("repository", JObj [("full_name", JStr "octo/repo")]);
        ("sender", JObj [("login", JStr "octocat")])].

(** The same payload without its [sender]. *)
Definition senderless_payload : json :=
  JObj [("action", JStr "opened");
        ("pull_request",
         JObj [("title", JStr "Fix typo");
               ("html_url", JStr "https://github.com/octo/repo/pull/1")]);
        ("repository", JObj [("full_name", JStr "octo/repo")])].

Definition opened_event : GitHubEvent :=
  {| kind := PullRequest; actor := "octocat"; repository := "octo/repo";
     action := "opened"; title := "Fix typo";
     url := "https://github.com/octo/repo/pull/1" |}.

Definition opened_request : Request :=
  {| headers := {[ "X-GitHub-Event" := "pull_request" ]};
     payload := Json (pull_request_payload "opened");
     forms := [] |}.

Definition headerless_request : Request :=
  {| headers := {[ "Content-Type" := "application/json" ]};
     payload := Json (pull_request_payload "opened");
     forms := [] |}.

Definition mapping (repo : string) (k : EventKind) : list string :=
  if String.eqb repo "octo/repo" then ["#dev"; "#reviews"] else [].

(** A bot whose chat platform cannot be reached. *)
Definition offline : SlackBot.World :=
  {| SlackBot.chat := fun _ _ _ => SlackBot.NetworkError;
     SlackBot.attempts := 0;
     SlackBot.posted := [];
     SlackBot.telemetry := [];
     SlackBot.audit := Log.new 2;
     SlackBot.now := 1700000000 |}.

Definition slash_form : FormsDict :=
  [("command", "/subscribe"); ("text", "octo/repo");
   ("user_id", "U012"); ("channel_id", "C345")].

Definition slash_request : Request :=
  {| headers := ∅; payload := NotJson; forms := slash_form |}.

(** The same invocation with one more form field. *)
Definition slash_request_with_url : Request :=
  {| headers := ∅; payload := NotJson;
     forms := (slash_form ++ [("response_url", "https://hooks.example/1")])%list |}.

Definition silent_run (raw_json : FormsDict) (w : unit)
  : unit * outcome (option SlackBot.Message) :=
  (w, Returns None).

Definition unknown_invocation : SlackBot.CommandRequest :=
  {| SlackBot.command := "/frobnicate"; SlackBot.text := "";
     SlackBot.user_id := "U012"; SlackBot.channel_id := "C345" |}.

Definition entry (n : Z) : LogEntry :=
  {| timestamp := n; command_name := "/list"; invoking_user := "U012";
     tag := Success; summary := "ok" |}.

End Examples.

(** ** The test endpoints of [main.py] *)

(** [@get("/")]. *)
Definition test_get : string := "This server is running!".

(** [j[key]] on a decoded JSON value. Only a [dict] can be subscripted by
    a string: a missing key is a [KeyError], any other value is a
    [TypeError] (written [OtherFault "TypeError"]). Of a key that the JSON
    text repeats, the decoder keeps the last value. *)
Definition json_getitem (j : json) (key : string) : outcome json :=
  match j with
  | JObj fields =>
      match last (filter (fun kv => kv.1 = key) fields) with
      | Some kv => Returns kv.2
      | None => Raises (KeyError key)
      end
  | _ => Raises (OtherFault "TypeError")
  end.

Definition newline : string := String (ascii_of_nat 10) "".

(** The reply of [test_post] around the guessed name. *)
Definition guess (name : string) : string :=
  "This server is working, and to prove it to you, "
  ++ "I'll guess your name!" ++ newline ++ "Your name is... " ++ name ++ "!".

Section TestPost.

(** [str] of a decoded list or dict, as the f-string would print it. *)
Variable container_str : json -> string.

(** What [{name}] prints in the f-string: a [str] as it is, the other
    scalars by their [str]. *)
Definition format_value (v : json) : string :=
  match v with
  | JNull => "None"
  | JBool true => "True"
  | JBool false => "False"
  | JNum n => pretty n
  | JStr s => s
  | JArr _ | JObj _ => container_str v
  end.

(** [@post("/")]. The [try] covers [request.json["name"]]; only
    [KeyError] and [TypeError] are caught, so the 400 of a body that does
    not decode leaves the function. *)
Definition test_post (req : Request) : outcome string :=
  outcome_bind
    (match outcome_bind (request_json req) (fun j => json_getitem j "name") with
     | Returns v => Returns (format_value v)
     | Raises (KeyError _) => Returns "(empty JSON)"
     | Raises (OtherFault e) =>
         if String.eqb e "TypeError" then Returns "(invalid JSON)"
         else Raises (OtherFault e)
     | Raises f => Raises f
     end)
    (fun name => Returns (guess name)).

End TestPost.

(** ** The [__main__] block of [main.py] *)

Module Main.

(** What the block does to the outside, in the order done. *)
Inductive effect : Type :=
| SentryInit (dsn : string)
| LoggerInit (capacity : Z)
| SlackBotInit (token : string).

(** The arguments of the final [run(host=..., port=..., debug=...)]. *)
Record Server : Type := {
  host : string;
  port : Z;
  debug : bool
}.

(** [load_dotenv(path)] with its default [override=False]: the variables
    of the file are added to the environment, those already set keep
    their value. A missing file adds nothing. *)
Definition load_dotenv (environ dotenv : gmap string string)
  : gmap string string :=
  environ ∪ dotenv.

Section Startup.

(** [L] is [Logger], [B] is [SlackBot]. *)
Context {L B : Type}.

(** [sentry_sdk.init(dsn=..., integrations=[BottleIntegration()])]. *)
Variable sentry_sdk_init : string -> outcome unit.
(** [Logger(n)]. *)
Variable Logger_init : Z -> outcome L.
(** [SlackBot(token=..., logger=...)]. *)
Variable SlackBot_init : string -> L -> outcome B.

(** The effects so far, and a value or the fault that stopped the block. *)
Definition startup (A : Type) : Type := list effect * outcome A.

Definition pure {A : Type} (o : outcome A) : startup A := ([], o).

Definition doing {A : Type} (e : effect) (o : outcome A) : startup A := ([e], o).

Definition andthen {A C : Type} (m : startup A) (k : A -> startup C) : startup C :=
  match m with
  | (es, Returns a) => ((es ++ (k a).1)%list, (k a).2)
  | (es, Raises f) => (es, Raises f)
  end.

Local Notation "'let*' x ':=' m 'in' k" := (andthen m (fun x => k))
  (at level 10, x name, m at level 100, k at level 200).

(** Lines 86-90: Sentry is set up unless the block runs in debug mode. *)
Definition init_sentry (env : gmap string string) (debug : bool) : startup unit :=
  if debug then pure (Returns tt)
  else let* dsn := pure (environ_getitem env "SENTRY_DSN") in
       doing (SentryInit dsn) (sentry_sdk_init dsn).

(** Lines 92-95: [bot = SlackBot(token=..., logger=Logger(int(...)))].
    The keyword arguments are evaluated left to right: the token is read
    before the capacity, and the logger is built before the bot. *)
Definition new_bot (env : gmap string string) : startup B :=
  let* token := pure (environ_getitem env "SLACK_OAUTH_TOKEN") in
  let* n := pure (log_last_n_commands env) in
  let* logger := doing (LoggerInit n) (Logger_init n) in
  doing (SlackBotInit token) (SlackBot_init token logger).

(** The block, from [load_dotenv] to the arguments [run] is called with.
    [environ] is the environment of the process and [dotenv] the content
    of the [.env] file. *)
Definition main (environ dotenv : gmap string string) : startup (B * Server) :=
  let env := load_dotenv environ dotenv in
  let* d := pure (environ_getitem env "DEBUG") in
  let debug := String.eqb d "1" in
  let* _ := init_sentry env debug in
  let* bot := new_bot env in
  pure (Returns (bot, {| host := ""; port := 5556; debug := debug |})).

End Startup.

End Main.

(** Text made of white space only. *)
Fixpoint all_space (s : string) : bool :=
  match s with
  | EmptyString => true
  | String c s' => is_space c && all_space s'
  end.

(** ** More sample data *)

Module Samples.

Definition named_request : Request :=
  {| headers := ∅;
     payload := Json (JObj [("name", JStr "Ada"); ("age", JNum 36)]);
     forms := [] |}.

Definition undecodable_request : Request :=
  {| headers := {[ "X-GitHub-Event" := "pull_request" ]};
     payload := InvalidJson;
     forms := [] |}.

Definition bodyless_request : Request :=
  {| headers := {[ "X-GitHub-Event" := "ping" ]};
     payload := NotJson;
     forms := [] |}.


Definition brackets (v : json) : string := "[...]".

Definition failing_parse (event_type : string) (raw_json : json)
  : outcome (option GitHubEvent) :=
  Raises (OtherFault "AttributeError").

Definition failing_inform (e : GitHubEvent) (w : nat) : nat * outcome unit :=
  (S w, Raises (OtherFault "SlackApiError")).

Definition accepting_parse (event_type : string) (raw_json : json)
  : outcome (option GitHubEvent) :=
  Returns (Some Examples.opened_event).

Definition production : gmap string string :=
  {[ "DEBUG" := "0"; "SENTRY_DSN" := "https://key@sentry.example/1";
     "SLACK_OAUTH_TOKEN" := "xoxb-1"; "LOG_LAST_N_COMMANDS" := "50" ]}.

Definition development : gmap string string :=
  {[ "DEBUG" := "1"; "SLACK_OAUTH_TOKEN" := "xoxb-1";
     "LOG_LAST_N_COMMANDS" := "" ]}.

Definition dotenv_file : gmap string string :=
  {[ "DEBUG" := "1"; "LOG_LAST_N_COMMANDS" := "7"; "EXTRA" := "x" ]}.

Definition sentry_ok (dsn : string) : outcome unit := Returns tt.

Definition logger_ok (n : Z) : outcome Z := Returns n.

Definition bot_ok (token : string) (logger : Z) : outcome (string * Z) :=
  Returns (token, logger).

End Samples.

(** * Properties *)

(** ** The handlers *)

Section TransportFacts.

Context {Event Dict World : Type}.
Variable parse : string -> json -> outcome (option Event).
Variable inform : Event -> World -> World * outcome unit.
Variable run : FormsDict -> World -> World * outcome (option Dict).

Lemma manage_github_events_no_header (req : Request) (s : World * list (call Event)) :
  headers req !! "X-GitHub-Event" = None ->
  manage_github_events (Dict := Dict) parse inform req s
  = (s, Raises (KeyError "X-GitHub-Event")).
Proof.
  intros Hh. unfold manage_github_events, bind, lift, headers_getitem.
  rewrite Hh. reflexivity.
Qed.

Lemma manage_github_events_parsed (req : Request) (w : World)
    (tr : list (call Event)) (event_type : string) (raw_json : json) :
  headers req !! "X-GitHub-Event" = Some event_type ->
  request_json req = Returns raw_json ->
  manage_github_events (Dict := Dict) parse inform req (w, tr)
  = match parse event_type raw_json with
    | Returns (Some e) =>
        (((inform e w).1, tr ++ [CallParse event_type raw_json; CallInform e])%list,
         outcome_bind (inform e w).2 (fun _ => Returns None))
    | Returns None =>
        ((w, tr ++ [CallParse event_type raw_json])%list, Returns None)
    | Raises f =>
        ((w, tr ++ [CallParse event_type raw_json])%list, Raises f)
    end.
Proof.
  intros Hh Hj.
  unfold manage_github_events, GitHubPayloadParser_parse, bot_inform, bind,
    lift, calling, on_world, ret, headers_getitem.
  rewrite Hh, Hj. cbn.
  destruct (parse event_type raw_json) as [[e|]|f]; cbn; try reflexivity.
  rewrite <- app_assoc. cbn.
  destruct (inform e w) as [w' [[]|f]]; reflexivity.
Qed.

(** C1. When the request carries the event-type header and a readable
    body, the handler calls [parse] with that header value and that body;
    it calls [inform] exactly when [parse] returned an event, with that
    very event; when [parse] returned nothing there is no second call, the
    bot is left as it was and the handler returns without fault. *)
Theorem webhook_parses_then_informs (req : Request) (w : World)
    (tr : list (call Event)) (event_type : string) (raw_json : json)
    (parsed : option Event) :
  headers req !! "X-GitHub-Event" = Some event_type ->
  request_json req = Returns raw_json ->
  parse event_type raw_json = Returns parsed ->
  manage_github_events (Dict := Dict) parse inform req (w, tr)
  = match parsed with
    | Some e =>
        (((inform e w).1, tr ++ [CallParse event_type raw_json; CallInform e])%list,
         outcome_bind (inform e w).2 (fun _ => Returns None))
    | None =>
        ((w, tr ++ [CallParse event_type raw_json])%list, Returns None)
    end.
Proof.
  intros Hh Hj Hp.
  rewrite (manage_github_events_parsed req w tr event_type raw_json Hh Hj).
  rewrite Hp. reflexivity.
Qed.

(** C9. A request without the [X-GitHub-Event] header makes the handler
    raise the lookup fault at once: no collaborator has been called (the
    list of calls and the bot are unchanged) and the fault leaves the
    handler, which the transport answers with status 500. *)
Theorem webhook_without_header_faults (req : Request) (w : World)
    (tr : list (call Event)) :
  headers req !! "X-GitHub-Event" = None ->
  manage_github_events (Dict := Dict) parse inform req (w, tr)
  = ((w, tr), Raises (KeyError "X-GitHub-Event")) /\
  transport_status
    (manage_github_events (Dict := Dict) parse inform req (w, tr)).2 = 500%Z.
Proof.
  intros Hh. rewrite manage_github_events_no_header by exact Hh.
  split; reflexivity.
Qed.

Lemma manage_slack_commands_unfold (req : Request) (w : World)
    (tr : list (call Event)) :
  manage_slack_commands run req (w, tr)
  = (((run (forms req) w).1, tr ++ [CallRun (forms req)])%list,
     (run (forms req) w).2).
Proof.
  unfold manage_slack_commands, bot_run, bind, calling, on_world, ret. cbn.
  destruct (run (forms req) w) as [w' [r|f]]; reflexivity.
Qed.

(** C2, as the code has it. The handler extracts nothing: it makes one
    call, [run], whose argument is the whole form data of the request,
    and neither the headers nor the JSON body of the request have any
    part in it. *)
Theorem slash_command_passes_whole_form (req : Request) (w : World)
    (tr : list (call Event)) :
  (manage_slack_commands run req (w, tr)).1.2
  = (tr ++ [CallRun (forms req)])%list /\
  forall (h : gmap string string) (b : body),
    manage_slack_commands run req (w, tr)
    = manage_slack_commands run
        {| headers := h; payload := b; forms := forms req |} (w, tr).
Proof.
  split.
  - rewrite manage_slack_commands_unfold. reflexivity.
  - intros h b. rewrite !manage_slack_commands_unfold. reflexivity.
Qed.

(** C4. Whatever [run] gives back (a message payload, nothing, or a
    fault) is what the handler gives back, unchanged, and the bot is in the
    state [run] left it in. *)
Theorem slash_command_forwards_response (req : Request) (w : World)
    (tr : list (call Event)) :
  (manage_slack_commands run req (w, tr)).2 = (run (forms req) w).2 /\
  (manage_slack_commands run req (w, tr)).1.1 = (run (forms req) w).1.
Proof.
  rewrite manage_slack_commands_unfold. split; reflexivity.
Qed.

End TransportFacts.

(** ** The audit log *)

Lemma record_keeps_capacity (e : LogEntry) (log : Logger) :
  N (Log.record e log) = N log.
Proof. reflexivity. Qed.

Lemma record_within_capacity (e : LogEntry) (log : Logger) :
  length (entries log) <= N log ->
  length (entries (Log.record e log)) <= N log.
Proof.
  intros Hle. unfold Log.record. cbn.
  rewrite length_drop, length_app. cbn. lia.
Qed.

Lemma record_all_entries (es : list LogEntry) :
  forall log : Logger,
    length (entries log) <= N log ->
    N (Log.record_all es log) = N log /\
    entries (Log.record_all es log)
    = drop (length (entries log ++ es) - N log) (entries log ++ es).
Proof.
  induction es as [|e es IH]; intros log Hle.
  - cbn. rewrite app_nil_r.
    replace (length (entries log) - N log) with 0 by lia.
    split; reflexivity.
  - change (Log.record_all (e :: es) log)
      with (Log.record_all es (Log.record e log)).
    destruct (IH (Log.record e log)) as [HN HE].
    { rewrite record_keeps_capacity. apply record_within_capacity, Hle. }
    split; [rewrite HN; reflexivity|].
    rewrite HE. rewrite record_keeps_capacity.
    unfold Log.record at 1 2. cbn [entries].
    set (k := length (entries log ++ [e]) - N log).
    assert (Hk : k <= length (entries log ++ [e])) by (unfold k; lia).
    rewrite <- (drop_app_le _ es k Hk).
    rewrite <- app_assoc. cbn [app].
    rewrite drop_drop. f_equal.
    rewrite length_drop.
    assert (Hl : length (entries log ++ [e]) = S (length (entries log)))
      by (rewrite length_app; cbn; lia).
    rewrite !length_app. cbn [length]. unfold k. rewrite Hl. lia.
Qed.

Lemma record_all_app (pre es : list LogEntry) (log : Logger) :
  Log.record_all (pre ++ es) log = Log.record_all es (Log.record_all pre log).
Proof. unfold Log.record_all. apply foldl_app. Qed.

(** C5. Take any audit log of capacity [N] (an empty one that has
    recorded whatever it has recorded before) and insert [N + 5] entries:
    [recent()] then holds exactly [N] entries, which are the inserted ones
    without the five oldest, the most recent first. *)
Theorem recent_after_overflow (capacity : nat) (before es : list LogEntry) :
  length es = capacity + 5 ->
  length (Log.recent (Log.record_all es (Log.record_all before (Log.new capacity))))
  = capacity /\
  Log.recent (Log.record_all es (Log.record_all before (Log.new capacity)))
  = rev (drop 5 es).
Proof.
  intros Hlen. rewrite <- record_all_app.
  destruct (record_all_entries (before ++ es) (Log.new capacity)) as [_ HE];
    [cbn; lia|].
  cbn [Log.new entries N app] in HE.
  rewrite length_app in HE.
  replace (length before + length es - capacity)
    with (length before + 5) in HE by lia.
  rewrite drop_app_add' in HE by reflexivity.
  unfold Log.recent. rewrite HE. split; [|reflexivity].
  rewrite length_rev, length_drop. lia.
Qed.

(** ** The command dispatcher *)

(** C6. For a command name outside the registry, [run] answers with an
    error message that is not empty, and the audit log has received
    exactly one [record], of an entry for that command and that user;
    nothing else of the bot has changed. *)
Theorem run_unknown_command (registry : gmap string SlackBot.Handler)
    (req : SlackBot.CommandRequest) (w : SlackBot.World) :
  registry !! SlackBot.command req = None ->
  exists (m : SlackBot.Message) (entry : LogEntry),
    (SlackBot.run registry req w).2 = Some m /\
    SlackBot.response_kind m = SlackBot.ErrorReply /\
    SlackBot.blocks m <> "" /\
    (SlackBot.run registry req w).1 = SlackBot.logged entry w /\
    SlackBot.audit (SlackBot.run registry req w).1
    = Log.record entry (SlackBot.audit w) /\
    command_name entry = SlackBot.command req /\
    invoking_user entry = SlackBot.user_id req /\
    tag entry = Failure.
Proof.
  intros Hnone. unfold SlackBot.run. rewrite Hnone.
  eexists _, _. cbn. repeat split. discriminate.
Qed.

(** ** The event parser *)

(** Case analysis on the reading of one field, in the order the
    extraction routine reads them. *)
Ltac field o := destruct o; [cbn|reflexivity].

Lemma filled_at_not_empty (path : list string) (j : json) (s : string) :
  GitHubPayloadParser.filled_at path j = Some s -> s <> "".
Proof.
  unfold GitHubPayloadParser.filled_at.
  destruct (GitHubPayloadParser.text_at path j) as [t|]; [|discriminate].
  destruct (String.eqb t "") eqn:E; [discriminate|].
  intros [= <-]. apply String.eqb_neq, E.
Qed.

Lemma text_at_unreadable (path : list string) (j : json) :
  GitHubPayloadParser.read path j = None ->
  GitHubPayloadParser.text_at path j = None.
Proof.
  intros H. unfold GitHubPayloadParser.text_at. rewrite H. reflexivity.
Qed.

Lemma filled_at_unreadable (path : list string) (j : json) :
  GitHubPayloadParser.read path j = None ->
  GitHubPayloadParser.filled_at path j = None.
Proof.
  intros H. unfold GitHubPayloadParser.filled_at.
  rewrite text_at_unreadable by exact H. reflexivity.
Qed.

(** C7. [parse] returns nothing for an event type outside the registry,
    and for a supported event type whose payload names an action the
    system does not report on. Being a total function into [option], it
    has no other way out. *)
Theorem parse_uninteresting
    (registry : gmap string GitHubPayloadParser.Extraction)
    (event_type : string) (raw_json : json) :
  (registry !! event_type = None ->
   GitHubPayloadParser.parse registry event_type raw_json = None) /\
  (forall (x : GitHubPayloadParser.Extraction) (verb : string),
     registry !! event_type = Some x ->
     GitHubPayloadParser.text_at (GitHubPayloadParser.action_path x) raw_json
     = Some verb ->
     GitHubPayloadParser.reports x verb = false ->
     GitHubPayloadParser.parse registry event_type raw_json = None).
Proof.
  split.
  - intros H. unfold GitHubPayloadParser.parse. rewrite H. reflexivity.
  - intros x verb Hx Hverb Hrep.
    unfold GitHubPayloadParser.parse. rewrite Hx. cbn.
    unfold GitHubPayloadParser.extract. rewrite Hverb.
    field (GitHubPayloadParser.filled_at (GitHubPayloadParser.actor_path x) raw_json).
    field (GitHubPayloadParser.filled_at (GitHubPayloadParser.repository_path x) raw_json).
    cbn.
    field (GitHubPayloadParser.text_at (GitHubPayloadParser.title_path x) raw_json).
    field (GitHubPayloadParser.filled_at (GitHubPayloadParser.url_path x) raw_json).
    rewrite Hrep. reflexivity.
Qed.

(** C8. Every event [parse] emits has a non-empty actor, repository and
    URL; and for a supported event type, a payload in which a required
    field cannot be read makes [parse] return nothing. *)
Theorem parse_emits_populated_events
    (registry : gmap string GitHubPayloadParser.Extraction)
    (event_type : string) (raw_json : json) :
  (forall e : GitHubEvent,
     GitHubPayloadParser.parse registry event_type raw_json = Some e ->
     actor e <> "" /\ repository e <> "" /\ url e <> "") /\
  (forall x : GitHubPayloadParser.Extraction,
     registry !! event_type = Some x ->
     GitHubPayloadParser.missing_field x raw_json ->
     GitHubPayloadParser.parse registry event_type raw_json = None).
Proof.
  split.
  - intros e. unfold GitHubPayloadParser.parse.
    destruct (registry !! event_type) as [x|]; [cbn|discriminate].
    unfold GitHubPayloadParser.extract.
    destruct (GitHubPayloadParser.filled_at (GitHubPayloadParser.actor_path x) raw_json)
      as [a|] eqn:Ha; [cbn|discriminate].
    destruct (GitHubPayloadParser.filled_at (GitHubPayloadParser.repository_path x) raw_json)
      as [r|] eqn:Hr; [cbn|discriminate].
    destruct (GitHubPayloadParser.text_at (GitHubPayloadParser.action_path x) raw_json)
      as [verb|]; [cbn|discriminate].
    destruct (GitHubPayloadParser.text_at (GitHubPayloadParser.title_path x) raw_json)
      as [t|]; [cbn|discriminate].
    destruct (GitHubPayloadParser.filled_at (GitHubPayloadParser.url_path x) raw_json)
      as [u|] eqn:Hu; [cbn|discriminate].
    destruct (GitHubPayloadParser.reports x verb); [|discriminate].
    intros [= <-]. cbn.
    repeat split; eapply filled_at_not_empty; eassumption.
  - intros x Hx Hmiss. unfold GitHubPayloadParser.parse. rewrite Hx. cbn.
    unfold GitHubPayloadParser.extract.
    destruct Hmiss as [H|[H|[H|[H|H]]]];
      [ rewrite (filled_at_unreadable _ _ H)
      | rewrite (filled_at_unreadable _ _ H)
      | rewrite (text_at_unreadable _ _ H)
      | rewrite (text_at_unreadable _ _ H)
      | rewrite (filled_at_unreadable _ _ H) ];
      repeat match goal with
             | |- context [ mbind _ ?o ] =>
                 lazymatch o with
                 | None => fail
                 | _ => destruct o; cbn
                 end
             end;
      reflexivity.
Qed.

(** ** The webhook endpoint, end to end *)

Lemma inform_returns (mapping : string -> EventKind -> list string)
    (e : GitHubEvent) (w : SlackBot.World) :
  (SlackBot.inform mapping e w).2 = Returns tt.
Proof. reflexivity. Qed.

(** C3. For a request whose payload is readable as structured data: a
    value the endpoint returns is always [None]; a status other than 200
    means that nothing of the core has run (no call was made, the bot is
    untouched); and as soon as the event-type header is there the endpoint
    returns [None] with status 200, whatever [parse] decides and however
    the chat platform answers the deliveries of [inform]. *)
Theorem webhook_hides_core_failures
    (registry : gmap string GitHubPayloadParser.Extraction)
    (mapping : string -> EventKind -> list string)
    (req : Request) (w : SlackBot.World) (j : json) :
  payload req = Json j ->
  (forall v, (webhook registry mapping req (w, [])).2 = Returns v -> v = None) /\
  (transport_status (webhook registry mapping req (w, [])).2 <> 200%Z ->
   (webhook registry mapping req (w, [])).1 = (w, [])) /\
  (is_Some (headers req !! "X-GitHub-Event") ->
   (webhook registry mapping req (w, [])).2 = Returns None /\
   transport_status (webhook registry mapping req (w, [])).2 = 200%Z).
Proof.
  intros Hj.
  assert (Hjson : request_json req = Returns j)
    by (unfold request_json; rewrite Hj; reflexivity).
  unfold webhook.
  destruct (headers req !! "X-GitHub-Event") as [event_type|] eqn:Hh.
  - rewrite (manage_github_events_parsed _ _ req w [] event_type j Hh Hjson).
    destruct (GitHubPayloadParser.parse registry event_type j) as [e|]; cbn;
      (split; [intros v [= <-]; reflexivity|]);
      (split; [intros Hs; contradiction Hs; reflexivity|]);
      intros _; split; reflexivity.
  - rewrite manage_github_events_no_header by exact Hh. cbn.
    split; [intros v [=]|].
    split; [reflexivity|].
    intros [x [=]].
Qed.

(** ** Start-up *)

(** C10. The default is applied to the text of the environment value,
    before the conversion: the empty text gives 100, every other text [v]
    gives [int(v)] (which may raise), and the text "0" gives 0. *)
Theorem log_capacity_defaults_before_conversion
    (environ : gmap string string) (v : string) :
  log_last_n_commands (<[ "LOG_LAST_N_COMMANDS" := v ]> environ)
  = (if String.eqb v "" then Returns 100%Z else py_int (PyStr v)) /\
  log_last_n_commands (<[ "LOG_LAST_N_COMMANDS" := "" ]> environ)
  = Returns 100%Z /\
  log_last_n_commands (<[ "LOG_LAST_N_COMMANDS" := "0" ]> environ)
  = Returns 0%Z.
Proof.
  unfold log_last_n_commands, environ_getitem.
  rewrite !lookup_insert_eq. cbn. repeat split.
  unfold py_or, truthy. destruct (String.eqb v ""); reflexivity.
Qed.

Example log_capacity_underscore :
  log_last_n_commands {[ "LOG_LAST_N_COMMANDS" := " 1_000 " ]} = Returns 1000%Z.
Proof. vm_compute. reflexivity. Qed.

Example log_capacity_bad :
  exists t, log_last_n_commands {[ "LOG_LAST_N_COMMANDS" := "12a" ]} = Raises (ValueError t).
Proof. eexists. vm_compute. reflexivity. Qed.

(** ** Sanity checks of the models *)

Example parse_opened_pull_request :
  GitHubPayloadParser.parse Examples.registry "pull_request"
    (Examples.pull_request_payload "opened") = Some Examples.opened_event.
Proof. vm_compute. reflexivity. Qed.

Example inform_offline_reports_and_returns :
  let r := SlackBot.inform Examples.mapping Examples.opened_event Examples.offline in
  r.2 = Returns tt /\
  SlackBot.posted r.1 = [] /\
  SlackBot.report_channel <$> SlackBot.telemetry r.1 = ["#dev"; "#reviews"].
Proof. vm_compute. repeat split. Qed.

Example log_keeps_the_newest :
  Log.recent (Log.record_all (Examples.entry <$> [1; 2; 3]%Z) (Log.new 2))
  = [Examples.entry 3; Examples.entry 2] /\
  Log.recent (Log.record_all (Examples.entry <$> [1; 2; 3]%Z) (Log.new 0)) = [].
Proof. split; reflexivity. Qed.

Example slash_command_call :
  manage_slack_commands (Event := GitHubEvent) Examples.silent_run
    Examples.slash_request (tt, [])
  = ((tt, [CallRun Examples.slash_form]), Returns None).
Proof. reflexivity. Qed.

(** ** The properties at work on the sample data *)

Lemma webhook_parses_then_informs_witness :
  headers Examples.opened_request !! "X-GitHub-Event" = Some "pull_request" /\
  manage_github_events (Dict := SlackBot.Message)
    (fun event_type raw_json =>
       Returns (GitHubPayloadParser.parse Examples.registry event_type raw_json))
    (SlackBot.inform Examples.mapping)
    Examples.opened_request (Examples.offline, [])
  = (((SlackBot.inform Examples.mapping Examples.opened_event Examples.offline).1,
      [CallParse "pull_request" (Examples.pull_request_payload "opened");
       CallInform Examples.opened_event]),
     Returns None).
Proof.
  split; [vm_compute; reflexivity|].
  apply (webhook_parses_then_informs
           (fun event_type raw_json =>
              Returns (GitHubPayloadParser.parse Examples.registry event_type raw_json))
           (SlackBot.inform Examples.mapping)
           Examples.opened_request Examples.offline []
           "pull_request" (Examples.pull_request_payload "opened")
           (Some Examples.opened_event)).
  - vm_compute; reflexivity.
  - reflexivity.
  - vm_compute; reflexivity.
Defined.

Lemma webhook_without_header_faults_witness :
  manage_github_events (Dict := SlackBot.Message)
    (fun event_type raw_json =>
       Returns (GitHubPayloadParser.parse Examples.registry event_type raw_json))
    (SlackBot.inform Examples.mapping)
    Examples.headerless_request (Examples.offline, [])
  = ((Examples.offline, []), Raises (KeyError "X-GitHub-Event")).
Proof.
  apply (webhook_without_header_faults
           (fun event_type raw_json =>
              Returns (GitHubPayloadParser.parse Examples.registry event_type raw_json))
           (SlackBot.inform Examples.mapping)
           Examples.headerless_request Examples.offline []).
  vm_compute; reflexivity.
Defined.

(** C2, as stated, fails: two invocations from which the same command
    name, argument string, user and channel are extracted, and which
    differ in another form field, reach [run] with different arguments.
    What [run] is given is the form data, not the extracted fields. *)
Lemma slash_command_passes_more_than_extracted :
  SlackBot.extracted_fields (forms Examples.slash_request)
  = SlackBot.extracted_fields (forms Examples.slash_request_with_url) /\
  (manage_slack_commands (Event := GitHubEvent) Examples.silent_run
     Examples.slash_request (tt, [])).1.2
  <> (manage_slack_commands (Event := GitHubEvent) Examples.silent_run
        Examples.slash_request_with_url (tt, [])).1.2.
Proof.
  split; [vm_compute; reflexivity|].
  vm_compute. intros [=].
Qed.

Lemma webhook_hides_core_failures_witness :
  payload Examples.opened_request = Json (Examples.pull_request_payload "opened") /\
  (webhook Examples.registry Examples.mapping Examples.opened_request
     (Examples.offline, [])).2 = Returns None /\
  transport_status
    (webhook Examples.registry Examples.mapping Examples.opened_request
       (Examples.offline, [])).2 = 200%Z.
Proof.
  split; [reflexivity|].
  apply (webhook_hides_core_failures Examples.registry Examples.mapping
           Examples.opened_request Examples.offline
           (Examples.pull_request_payload "opened")).
  - reflexivity.
  - exists "pull_request". vm_compute; reflexivity.
Defined.

Lemma recent_after_overflow_witness :
  length (Examples.entry <$> [1; 2; 3; 4; 5; 6; 7]%Z) = 2 + 5 /\
  length
    (Log.recent
       (Log.record_all (Examples.entry <$> [1; 2; 3; 4; 5; 6; 7]%Z)
          (Log.record_all [Examples.entry 0] (Log.new 2))))
  = 2 /\
  Log.recent
    (Log.record_all (Examples.entry <$> [1; 2; 3; 4; 5; 6; 7]%Z)
       (Log.record_all [Examples.entry 0] (Log.new 2)))
  = [Examples.entry 7; Examples.entry 6].
Proof.
  split; [reflexivity|].
  exact (recent_after_overflow 2 [Examples.entry 0]
           (Examples.entry <$> [1; 2; 3; 4; 5; 6; 7]%Z) eq_refl).
Defined.

Lemma run_unknown_command_witness :
  exists (m : SlackBot.Message) (entry : LogEntry),
    (SlackBot.run ∅ Examples.unknown_invocation Examples.offline).2 = Some m /\
    SlackBot.response_kind m = SlackBot.ErrorReply /\
    SlackBot.blocks m <> "" /\
    (SlackBot.run ∅ Examples.unknown_invocation Examples.offline).1
    = SlackBot.logged entry Examples.offline /\
    SlackBot.audit (SlackBot.run ∅ Examples.unknown_invocation Examples.offline).1
    = Log.record entry (SlackBot.audit Examples.offline) /\
    command_name entry = "/frobnicate" /\
    invoking_user entry = "U012" /\
    tag entry = Failure.
Proof.
  apply (run_unknown_command ∅ Examples.unknown_invocation Examples.offline).
  vm_compute; reflexivity.
Defined.

Lemma parse_uninteresting_witness :
  GitHubPayloadParser.parse Examples.registry "star"
    (Examples.pull_request_payload "created") = None /\
  GitHubPayloadParser.parse Examples.registry "pull_request"
    (Examples.pull_request_payload "labeled") = None.
Proof.
  split.
  - apply (parse_uninteresting Examples.registry "star"
             (Examples.pull_request_payload "created")).
    vm_compute; reflexivity.
  - apply (proj2 (parse_uninteresting Examples.registry "pull_request"
                    (Examples.pull_request_payload "labeled"))
             Examples.pull_request_routine "labeled").
    + vm_compute; reflexivity.
    + reflexivity.
    + reflexivity.
Defined.

Lemma parse_emits_populated_events_witness :
  (actor Examples.opened_event <> "" /\
   repository Examples.opened_event <> "" /\
   url Examples.opened_event <> "") /\
  GitHubPayloadParser.parse Examples.registry "pull_request"
    Examples.senderless_payload = None.
Proof.
  split.
  - apply (proj1 (parse_emits_populated_events Examples.registry "pull_request"
                    (Examples.pull_request_payload "opened"))
             Examples.opened_event).
    vm_compute; reflexivity.
  - apply (proj2 (parse_emits_populated_events Examples.registry "pull_request"
                    Examples.senderless_payload)
             Examples.pull_request_routine).
    + vm_compute; reflexivity.
    + left. reflexivity.
Defined.

(** * Further properties of [main.py] *)

(** ** The test endpoint [test_post] *)

Lemma json_getitem_absent (fields : list (string * json)) (key : string) :
  key ∉ fields.*1 ->
  json_getitem (JObj fields) key = Raises (KeyError key).
Proof.
  intros Hnot. unfold json_getitem.
  replace (filter (fun kv : string * json => kv.1 = key) fields) with (@nil (string * json));
    [reflexivity|].
  symmetry. induction fields as [|[k v] fields IH]; [reflexivity|].
  rewrite fmap_cons, not_elem_of_cons in Hnot. destruct Hnot as [Hk Hrest].
  rewrite filter_cons_False by (cbn; intros E; apply Hk; symmetry; exact E).
  apply IH, Hrest.
Qed.

Lemma json_getitem_last (before after : list (string * json))
    (key : string) (v : json) :
  key ∉ after.*1 ->
  json_getitem (JObj (before ++ (key, v) :: after)) key = Returns v.
Proof.
  intros Hnot. unfold json_getitem.
  rewrite filter_app, filter_cons_True by reflexivity.
  replace (filter (fun kv : string * json => kv.1 = key) after) with (@nil (string * json)).
  - rewrite last_snoc. reflexivity.
  - symmetry. induction after as [|[k w] after IH]; [reflexivity|].
    rewrite fmap_cons, not_elem_of_cons in Hnot. destruct Hnot as [Hk Hrest].
    rewrite filter_cons_False by (cbn; intros E; apply Hk; symmetry; exact E).
    apply IH, Hrest.
Qed.

Section TestPostFacts.

Variable container_str : json -> string.

(** X1. [test_post] lets exactly one fault through: the one [request.json]
    raises for a body that claims to be JSON and does not decode. Every
    other request, whatever its body, is answered with the greeting
    around some name. *)
Theorem test_post_only_fault (req : Request) :
  match request_json req with
  | Raises f => test_post container_str req = Raises f
  | Returns _ =>
      exists name : string, test_post container_str req = Returns (guess name)
  end.
Proof.
  unfold test_post, request_json.
  destruct (payload req) as [| |j]; cbn; [eauto|reflexivity|].
  destruct j as [| | | | |fields]; cbn; eauto.
  destruct (last (filter (fun kv : string * json => kv.1 = "name") fields));
    cbn; eauto.
Qed.

(** X2. The two fall-back names. A body that is not a JSON object (no
    JSON at all, [null], a number, a text, a list) is answered as
    "(invalid JSON)"; an object without the key [name] is answered as
    "(empty JSON)". *)
Theorem test_post_fallback_names (req : Request) (j : json) :
  request_json req = Returns j ->
  ((forall fields, j <> JObj fields) ->
   test_post container_str req = Returns (guess "(invalid JSON)")) /\
  (forall fields, j = JObj fields -> "name" ∉ fields.*1 ->
   test_post container_str req = Returns (guess "(empty JSON)")).
Proof.
  intros Hj. unfold test_post. rewrite Hj. cbn [outcome_bind]. split.
  - intros Hnot. destruct j; try reflexivity. contradiction (Hnot fields eq_refl).
  - intros fields -> Habs. rewrite json_getitem_absent by exact Habs. reflexivity.
Qed.

(** X3. A name given as text is echoed as it is; when the object repeats
    the key [name], it is the last one that is greeted. *)
Theorem test_post_echoes_last_name (req : Request)
    (before after : list (string * json)) (s : string) :
  payload req = Json (JObj (before ++ ("name", JStr s) :: after)) ->
  "name" ∉ after.*1 ->
  test_post container_str req = Returns (guess s).
Proof.
  intros Hp Habs. unfold test_post, request_json. rewrite Hp.
  cbn [outcome_bind]. rewrite json_getitem_last by exact Habs. reflexivity.
Qed.

End TestPostFacts.

Lemma test_post_fallback_names_witness :
  test_post Samples.brackets Samples.bodyless_request
  = Returns (guess "(invalid JSON)") /\
  test_post Samples.brackets Examples.opened_request
  = Returns (guess "(empty JSON)").
Proof.
  split.
  - apply (test_post_fallback_names Samples.brackets Samples.bodyless_request
             JNull); [reflexivity | discriminate].
  - apply (proj2 (test_post_fallback_names Samples.brackets
                    Examples.opened_request
                    (Examples.pull_request_payload "opened") eq_refl)
             _ eq_refl).
    vm_compute. intros H.
    repeat (apply elem_of_cons in H as [[=]|H]).
    apply elem_of_nil in H. exact H.
Defined.

Lemma test_post_echoes_last_name_witness :
  test_post Samples.brackets Samples.named_request = Returns (guess "Ada").
Proof.
  apply (test_post_echoes_last_name Samples.brackets Samples.named_request
           [] [("age", JNum 36)] "Ada").
  - reflexivity.
  - cbn. intros H. apply elem_of_cons in H as [[=]|H].
    apply elem_of_nil in H. exact H.
Defined.

(** ** The webhook handler on its other paths *)

(** Closes a goal from the membership [H] of a call in a list of calls
    that does not hold it. *)
Ltac absent H :=
  exfalso;
  repeat (apply elem_of_cons in H as [H|H]; [discriminate H|]);
  apply elem_of_nil in H; exact H.

Section WebhookFacts.

Context {Event Dict World : Type}.
Variable parse : string -> json -> outcome (option Event).
Variable inform : Event -> World -> World * outcome unit.

Lemma manage_github_events_undecodable (req : Request)
    (s : World * list (call Event)) (event_type : string) (f : fault) :
  headers req !! "X-GitHub-Event" = Some event_type ->
  request_json req = Raises f ->
  manage_github_events (Dict := Dict) parse inform req s = (s, Raises f).
Proof.
  intros Hh Hj.
  unfold manage_github_events, bind, lift, headers_getitem.
  rewrite Hh, Hj. reflexivity.
Qed.

(** X4. A request that carries the header and a body that does not
    decode is refused before anything is called: the fault of
    [request.json] leaves the handler, and the list of calls and the bot
    are as they were. *)
Theorem webhook_undecodable_body (req : Request) (w : World)
    (tr : list (call Event)) (event_type : string) (f : fault) :
  headers req !! "X-GitHub-Event" = Some event_type ->
  request_json req = Raises f ->
  manage_github_events (Dict := Dict) parse inform req (w, tr)
  = ((w, tr), Raises f).
Proof.
  intros Hh Hj.
  exact (manage_github_events_undecodable req (w, tr) event_type f Hh Hj).
Qed.

(** X5. A body that is not JSON is not refused: with the header present
    the handler goes on and calls [parse], with [None] as the raw
    payload. *)
Theorem webhook_body_not_json_reaches_parse (req : Request) (w : World)
    (tr : list (call Event)) (event_type : string) :
  headers req !! "X-GitHub-Event" = Some event_type ->
  payload req = NotJson ->
  exists rest : list (call Event),
    (manage_github_events (Dict := Dict) parse inform req (w, tr)).1.2
    = (tr ++ CallParse event_type JNull :: rest)%list.
Proof.
  intros Hh Hp.
  assert (Hj : request_json req = Returns JNull)
    by (unfold request_json; rewrite Hp; reflexivity).
  rewrite (manage_github_events_parsed parse inform req w tr event_type JNull Hh Hj).
  destruct (parse event_type JNull) as [[e|]|f]; cbn; eauto.
Qed.

(** X6. Nothing guards the call of [parse]: a fault it raises leaves the
    handler as it is, [inform] is not called and the bot is untouched. *)
Theorem webhook_parse_fault_propagates (req : Request) (w : World)
    (tr : list (call Event)) (event_type : string) (raw_json : json)
    (f : fault) :
  headers req !! "X-GitHub-Event" = Some event_type ->
  request_json req = Returns raw_json ->
  parse event_type raw_json = Raises f ->
  manage_github_events (Dict := Dict) parse inform req (w, tr)
  = ((w, tr ++ [CallParse event_type raw_json])%list, Raises f).
Proof.
  intros Hh Hj Hp.
  rewrite (manage_github_events_parsed parse inform req w tr event_type raw_json Hh Hj).
  rewrite Hp. reflexivity.
Qed.

(** X7. Nothing guards the call of [inform] either: when it raises, the
    handler raises the same fault, with the bot in the state [inform]
    left it in. *)
Theorem webhook_inform_fault_propagates (req : Request) (w : World)
    (tr : list (call Event)) (event_type : string) (raw_json : json)
    (e : Event) (f : fault) :
  headers req !! "X-GitHub-Event" = Some event_type ->
  request_json req = Returns raw_json ->
  parse event_type raw_json = Returns (Some e) ->
  (inform e w).2 = Raises f ->
  manage_github_events (Dict := Dict) parse inform req (w, tr)
  = (((inform e w).1,
      tr ++ [CallParse event_type raw_json; CallInform e])%list,
     Raises f).
Proof.
  intros Hh Hj Hp Hi.
  rewrite (manage_github_events_parsed parse inform req w tr event_type raw_json Hh Hj).
  rewrite Hp, Hi. reflexivity.
Qed.

(** The four ways a run of the handler can go. *)
Lemma manage_github_events_cases (req : Request) (w : World)
    (tr : list (call Event)) :
  (exists f, manage_github_events (Dict := Dict) parse inform req (w, tr)
             = ((w, tr), Raises f)) \/
  (exists event_type raw_json f,
     parse event_type raw_json = Raises f /\
     manage_github_events (Dict := Dict) parse inform req (w, tr)
     = ((w, tr ++ [CallParse event_type raw_json])%list, Raises f)) \/
  (exists event_type raw_json,
     parse event_type raw_json = Returns None /\
     manage_github_events (Dict := Dict) parse inform req (w, tr)
     = ((w, tr ++ [CallParse event_type raw_json])%list, Returns None)) \/
  (exists event_type raw_json e,
     parse event_type raw_json = Returns (Some e) /\
     manage_github_events (Dict := Dict) parse inform req (w, tr)
     = (((inform e w).1,
         tr ++ [CallParse event_type raw_json; CallInform e])%list,
        outcome_bind (inform e w).2 (fun _ => Returns None))).
Proof.
  destruct (headers req !! "X-GitHub-Event") as [event_type|] eqn:Hh.
  - destruct (request_json req) as [raw_json|f] eqn:Hj.
    + rewrite (manage_github_events_parsed parse inform req w tr event_type raw_json Hh Hj).
      destruct (parse event_type raw_json) as [[e|]|f] eqn:Hp.
      * right; right; right. eauto.
      * right; right; left. eauto.
      * right; left. eauto 6.
    + left. exists f.
      unfold manage_github_events, bind, lift, headers_getitem.
      rewrite Hh, Hj. reflexivity.
  - left. eexists. apply manage_github_events_no_header, Hh.
Qed.

(** X8. What the handler never does. It makes at most two calls and none
    of them is [run]; [inform] is called only with an event that [parse]
    has just returned, straight after that call; and without a call of
    [inform] the bot is left as it was. *)
Theorem webhook_calls_are_bounded (req : Request) (w : World)
    (tr : list (call Event)) :
  exists new : list (call Event),
    (manage_github_events (Dict := Dict) parse inform req (w, tr)).1.2
    = (tr ++ new)%list /\
    length new <= 2 /\
    (forall raw_json, CallRun raw_json ∉ new) /\
    (forall e, CallInform e ∈ new ->
       exists event_type raw_json,
         parse event_type raw_json = Returns (Some e) /\
         new = [CallParse event_type raw_json; CallInform e] /\
         (manage_github_events (Dict := Dict) parse inform req (w, tr)).1.1
         = (inform e w).1) /\
    ((forall e, CallInform e ∉ new) ->
     (manage_github_events (Dict := Dict) parse inform req (w, tr)).1.1 = w).
Proof.
  destruct (manage_github_events_cases req w tr)
    as [[f H]|[(et & raw & f & Hp & H)|[(et & raw & Hp & H)|(et & raw & e & Hp & H)]]];
    rewrite H; cbn [fst snd].
  - exists []. rewrite app_nil_r.
    split; [reflexivity|]. split; [cbn; lia|].
    split; [intros r Hin; absent Hin|].
    split; [intros e Hin; absent Hin|reflexivity].
  - exists [CallParse et raw].
    split; [reflexivity|]. split; [cbn; lia|].
    split; [intros r Hin; absent Hin|].
    split; [intros e Hin; absent Hin|reflexivity].
  - exists [CallParse et raw].
    split; [reflexivity|]. split; [cbn; lia|].
    split; [intros r Hin; absent Hin|].
    split; [intros e Hin; absent Hin|reflexivity].
  - exists [CallParse et raw; CallInform e].
    split; [reflexivity|]. split; [cbn; lia|].
    split; [intros r Hin; absent Hin|].
    split.
    + intros e' Hin. apply elem_of_cons in Hin as [[=]|Hin].
      apply elem_of_cons in Hin as [[= <-]|Hin]; [|absent Hin].
      exists et, raw. split; [exact Hp|]. split; reflexivity.
    + intros Hno. contradiction (Hno e).
      apply elem_of_cons. right. apply elem_of_cons. left. reflexivity.
Qed.


(** X10. The handler never returns a reply: whenever it returns, for any
    [parse] and any [inform], the value is [None]. *)
Theorem webhook_returns_none (req : Request) (w : World)
    (tr : list (call Event)) (v : option Dict) :
  (manage_github_events (Dict := Dict) parse inform req (w, tr)).2 = Returns v ->
  v = None.
Proof.
  destruct (manage_github_events_cases req w tr)
    as [[f H]|[(et & raw & f & Hp & H)|[(et & raw & Hp & H)|(et & raw & e & Hp & H)]]];
    rewrite H; cbn [fst snd]; try discriminate.
  - intros [= <-]. reflexivity.
  - destruct (inform e w).2 as [[]|f]; cbn; [|discriminate].
    intros [= <-]. reflexivity.
Qed.

End WebhookFacts.

(** ** The capacity expression on its other inputs *)


Lemma lstrip_all_space (s : string) :
  all_space s = true -> lstrip s = "".
Proof.
  induction s as [|c s IH]; [reflexivity|]. cbn.
  destruct (is_space c); [cbn; exact IH|discriminate].
Qed.

(** X12. A value made of white space only is not taken for an empty one:
    it is not replaced by the default, and its conversion raises
    [ValueError]. *)
Theorem log_capacity_blank_is_an_error (environ : gmap string string)
    (v : string) :
  environ !! "LOG_LAST_N_COMMANDS" = Some v ->
  v <> "" ->
  all_space v = true ->
  log_last_n_commands environ
  = Raises (ValueError "invalid literal for int() with base 10").
Proof.
  intros Hv Hne Hsp. unfold log_last_n_commands, environ_getitem.
  rewrite Hv. cbn [outcome_bind]. unfold py_or, truthy.
  apply String.eqb_neq in Hne. rewrite Hne. cbn [negb py_int].
  unfold strip. rewrite (lstrip_all_space v Hsp). reflexivity.
Qed.


Lemma log_capacity_blank_is_an_error_witness :
  log_last_n_commands {[ "LOG_LAST_N_COMMANDS" := "  " ]}
  = Raises (ValueError "invalid literal for int() with base 10").
Proof.
  apply (log_capacity_blank_is_an_error
           {[ "LOG_LAST_N_COMMANDS" := "  " ]} "  ").
  - vm_compute; reflexivity.
  - discriminate.
  - reflexivity.
Defined.

(** ** The [__main__] block *)

Lemma load_dotenv_difference (environ dotenv : gmap string string) :
  Main.load_dotenv environ (dotenv ∖ environ) = Main.load_dotenv environ dotenv.
Proof.
  unfold Main.load_dotenv. apply map_eq. intros k.
  rewrite !lookup_union, lookup_difference.
  destruct (environ !! k), (dotenv !! k); reflexivity.
Qed.

Lemma environ_getitem_delete (env : gmap string string) (gone key : string) :
  gone <> key ->
  environ_getitem (delete gone env) key = environ_getitem env key.
Proof.
  intros Hne. unfold environ_getitem.
  rewrite lookup_delete_ne by exact Hne. reflexivity.
Qed.

Section StartupFacts.

Context {L B : Type}.
Variable sentry_sdk_init : string -> outcome unit.
Variable Logger_init : Z -> outcome L.
Variable SlackBot_init : string -> L -> outcome B.

Lemma new_bot_unfold (env : gmap string string) :
  Main.new_bot Logger_init SlackBot_init env
  = match env !! "SLACK_OAUTH_TOKEN" with
    | None => ([], Raises (KeyError "SLACK_OAUTH_TOKEN"))
    | Some token =>
        match log_last_n_commands env with
        | Raises f => ([], Raises f)
        | Returns n =>
            match Logger_init n with
            | Raises f => ([Main.LoggerInit n], Raises f)
            | Returns logger =>
                ([Main.LoggerInit n; Main.SlackBotInit token],
                 SlackBot_init token logger)
            end
        end
    end.
Proof.
  unfold Main.new_bot, Main.andthen, Main.pure, Main.doing, environ_getitem.
  destruct (env !! "SLACK_OAUTH_TOKEN") as [token|]; [|reflexivity].
  destruct (log_last_n_commands env) as [n|f]; [|reflexivity].
  destruct (Logger_init n) as [logger|f]; reflexivity.
Qed.

Lemma init_sentry_unfold (env : gmap string string) (debug : bool) :
  Main.init_sentry sentry_sdk_init env debug
  = if debug then ([], Returns tt)
    else match env !! "SENTRY_DSN" with
         | None => ([], Raises (KeyError "SENTRY_DSN"))
         | Some dsn => ([Main.SentryInit dsn], sentry_sdk_init dsn)
         end.
Proof.
  unfold Main.init_sentry, Main.andthen, Main.pure, Main.doing, environ_getitem.
  destruct debug; [reflexivity|].
  destruct (env !! "SENTRY_DSN") as [dsn|]; reflexivity.
Qed.

Lemma main_unfold (environ dotenv : gmap string string) :
  Main.main sentry_sdk_init Logger_init SlackBot_init environ dotenv
  = let env := Main.load_dotenv environ dotenv in
    match env !! "DEBUG" with
    | None => ([], Raises (KeyError "DEBUG"))
    | Some d =>
        match Main.init_sentry sentry_sdk_init env (String.eqb d "1") with
        | (es, Raises f) => (es, Raises f)
        | (es, Returns _) =>
            match Main.new_bot Logger_init SlackBot_init env with
            | (es', Raises f) => ((es ++ es')%list, Raises f)
            | (es', Returns bot) =>
                ((es ++ es')%list,
                 Returns (bot, {| Main.host := ""; Main.port := 5556;
                                  Main.debug := String.eqb d "1" |}))
            end
        end
    end.
Proof.
  unfold Main.main, Main.andthen at 1 2 3, Main.pure at 1 2, environ_getitem.
  cbn zeta.
  destruct (Main.load_dotenv environ dotenv !! "DEBUG") as [d|]; [|reflexivity].
  cbn [fst snd app].
  destruct (Main.init_sentry sentry_sdk_init _ _) as [es [[]|f]];
    [|cbn; rewrite ?app_nil_r; reflexivity].
  destruct (Main.new_bot Logger_init SlackBot_init _) as [es' [bot|f]];
    cbn; rewrite ?app_nil_r; reflexivity.
Qed.

(** X13. In debug mode Sentry is left alone: when [DEBUG] is the text
    "1", no run of the block initialises Sentry, and the variable
    [SENTRY_DSN] plays no part: the block goes the same way without it. *)
Theorem startup_debug_skips_sentry (environ dotenv : gmap string string) :
  Main.load_dotenv environ dotenv !! "DEBUG" = Some "1" ->
  (forall dsn,
     Main.SentryInit dsn
     ∉ (Main.main sentry_sdk_init Logger_init SlackBot_init environ dotenv).1) /\
  Main.main sentry_sdk_init Logger_init SlackBot_init environ dotenv
  = Main.main sentry_sdk_init Logger_init SlackBot_init
      (delete "SENTRY_DSN" environ) (delete "SENTRY_DSN" dotenv).
Proof.
  intros Hd. split.
  - intros dsn. rewrite main_unfold. cbn zeta. rewrite Hd.
    rewrite init_sentry_unfold, new_bot_unfold. cbn [String.eqb Ascii.eqb Bool.eqb].
    cbn [app].
    destruct (Main.load_dotenv environ dotenv !! "SLACK_OAUTH_TOKEN") as [token|];
      [|intros Hin; absent Hin].
    destruct (log_last_n_commands _) as [n|f]; [|intros Hin; absent Hin].
    destruct (Logger_init n) as [logger|f]; [|intros Hin; absent Hin].
    destruct (SlackBot_init token logger) as [bot|f]; intros Hin; absent Hin.
  - rewrite !main_unfold. cbn zeta.
    assert (Hdel : Main.load_dotenv (delete "SENTRY_DSN" environ)
                     (delete "SENTRY_DSN" dotenv)
                   = delete "SENTRY_DSN" (Main.load_dotenv environ dotenv))
      by (unfold Main.load_dotenv; symmetry; apply delete_union).
    rewrite Hdel, lookup_delete_ne by discriminate. rewrite Hd.
    rewrite !init_sentry_unfold, !new_bot_unfold.
    cbn [String.eqb Ascii.eqb Bool.eqb].
    rewrite lookup_delete_ne by discriminate.
    unfold log_last_n_commands.
    rewrite environ_getitem_delete by discriminate. reflexivity.
Qed.

(** X14. [DEBUG] is compared with the text "1" and nothing else: under any
    other value the block runs in production mode, and without
    [SENTRY_DSN] it stops there with a [KeyError], having built
    nothing. *)
Theorem startup_production_needs_sentry_dsn
    (environ dotenv : gmap string string) (d : string) :
  Main.load_dotenv environ dotenv !! "DEBUG" = Some d ->
  d <> "1" ->
  Main.load_dotenv environ dotenv !! "SENTRY_DSN" = None ->
  Main.main sentry_sdk_init Logger_init SlackBot_init environ dotenv
  = ([], Raises (KeyError "SENTRY_DSN")).
Proof.
  intros Hd Hne Hdsn. rewrite main_unfold. cbn zeta. rewrite Hd.
  rewrite init_sentry_unfold. apply String.eqb_neq in Hne. rewrite Hne, Hdsn.
  reflexivity.
Qed.

(** X15. The bot is only ever built from the environment: whenever
    [SlackBot(...)] is reached, its token is the value of
    [SLACK_OAUTH_TOKEN], a logger of the configured capacity has been
    built just before it, and whatever was done earlier is the set-up of
    Sentry. *)
Theorem startup_bot_built_from_environment
    (environ dotenv : gmap string string) (token : string) :
  Main.SlackBotInit token
  ∈ (Main.main sentry_sdk_init Logger_init SlackBot_init environ dotenv).1 ->
  Main.load_dotenv environ dotenv !! "SLACK_OAUTH_TOKEN" = Some token /\
  exists (n : Z) (logger : L) (before : list Main.effect),
    log_last_n_commands (Main.load_dotenv environ dotenv) = Returns n /\
    Logger_init n = Returns logger /\
    (Main.main sentry_sdk_init Logger_init SlackBot_init environ dotenv).1
    = (before ++ [Main.LoggerInit n; Main.SlackBotInit token])%list /\
    (forall e, e ∈ before -> exists dsn, e = Main.SentryInit dsn).
Proof.
  rewrite main_unfold. cbn zeta.
  destruct (Main.load_dotenv environ dotenv !! "DEBUG") as [d|];
    [|intros Hin; absent Hin].
  rewrite init_sentry_unfold, new_bot_unfold.
  assert (Hbefore : forall es : list Main.effect,
            (es = [] \/ exists dsn, es = [Main.SentryInit dsn]) ->
            forall e, e ∈ es -> exists dsn, e = Main.SentryInit dsn).
  { intros es [->|[dsn ->]] e Hin; [absent Hin|].
    apply elem_of_cons in Hin as [->|Hin]; [eauto|absent Hin]. }
  destruct (String.eqb d "1").
  - destruct (Main.load_dotenv environ dotenv !! "SLACK_OAUTH_TOKEN") as [t|];
      [|intros Hin; absent Hin].
    destruct (log_last_n_commands _) as [n|f]; [|intros Hin; absent Hin].
    destruct (Logger_init n) as [logger|f] eqn:Hl; [|intros Hin; absent Hin].
    destruct (SlackBot_init t logger) as [bot|f]; cbn [fst app];
      intros Hin;
      (apply elem_of_cons in Hin as [Hin|Hin]; [discriminate Hin|]);
      (apply elem_of_cons in Hin as [[= ->]|Hin]; [|absent Hin]);
      (split; [reflexivity|]);
      exists n, logger, []; repeat split; eauto.
  - destruct (Main.load_dotenv environ dotenv !! "SENTRY_DSN") as [dsn|];
      [|intros Hin; absent Hin].
    destruct (sentry_sdk_init dsn) as [[]|f]; [|intros Hin; absent Hin].
    destruct (Main.load_dotenv environ dotenv !! "SLACK_OAUTH_TOKEN") as [t|];
      [|cbn; intros Hin; absent Hin].
    destruct (log_last_n_commands _) as [n|f]; [|cbn; intros Hin; absent Hin].
    destruct (Logger_init n) as [logger|f] eqn:Hl; [|cbn; intros Hin; absent Hin].
    destruct (SlackBot_init t logger) as [bot|f]; cbn [fst app];
      intros Hin;
      (apply elem_of_cons in Hin as [Hin|Hin]; [discriminate Hin|]);
      (apply elem_of_cons in Hin as [Hin|Hin]; [discriminate Hin|]);
      (apply elem_of_cons in Hin as [[= ->]|Hin]; [|absent Hin]);
      (split; [reflexivity|]);
      exists n, logger, [Main.SentryInit dsn]; repeat split; eauto.
Qed.

End StartupFacts.

Section StartupOutcome.

Context {L B : Type}.
Variable sentry_sdk_init : string -> outcome unit.
Variable Logger_init : Z -> outcome L.
Variable SlackBot_init : string -> L -> outcome B.

(** X16. What a start-up that reaches [run] has done. The server is asked
    for on host "" and port 5556, in debug mode exactly when [DEBUG] is
    "1"; the bot is the one built from [SLACK_OAUTH_TOKEN] and a logger
    of the configured capacity; and Sentry has been initialised, with
    [SENTRY_DSN], exactly when the mode is not debug. *)
Theorem startup_success_inversion (environ dotenv : gmap string string)
    (es : list Main.effect) (bot : B) (server : Main.Server) :
  Main.main sentry_sdk_init Logger_init SlackBot_init environ dotenv
  = (es, Returns (bot, server)) ->
  let env := Main.load_dotenv environ dotenv in
  Main.host server = "" /\ Main.port server = 5556%Z /\
  exists (d token : string) (n : Z) (logger : L),
    env !! "DEBUG" = Some d /\
    Main.debug server = String.eqb d "1" /\
    env !! "SLACK_OAUTH_TOKEN" = Some token /\
    log_last_n_commands env = Returns n /\
    Logger_init n = Returns logger /\
    SlackBot_init token logger = Returns bot /\
    (Main.debug server = true ->
     es = [Main.LoggerInit n; Main.SlackBotInit token]) /\
    (Main.debug server = false ->
     exists dsn, env !! "SENTRY_DSN" = Some dsn /\
                 sentry_sdk_init dsn = Returns tt /\
                 es = [Main.SentryInit dsn; Main.LoggerInit n;
                       Main.SlackBotInit token]).
Proof.
  rewrite main_unfold. cbn zeta.
  destruct (Main.load_dotenv environ dotenv !! "DEBUG") as [d|]; [|discriminate].
  rewrite init_sentry_unfold, new_bot_unfold.
  destruct (Main.load_dotenv environ dotenv !! "SLACK_OAUTH_TOKEN") as [token|] eqn:Ht.
  2:{ destruct (String.eqb d "1"); [discriminate|].
      destruct (Main.load_dotenv environ dotenv !! "SENTRY_DSN") as [dsn|];
        [|discriminate].
      destruct (sentry_sdk_init dsn) as [[]|f]; discriminate. }
  destruct (log_last_n_commands (Main.load_dotenv environ dotenv)) as [n|f] eqn:Hn.
  2:{ destruct (String.eqb d "1"); [discriminate|].
      destruct (Main.load_dotenv environ dotenv !! "SENTRY_DSN") as [dsn|];
        [|discriminate].
      destruct (sentry_sdk_init dsn) as [[]|f']; discriminate. }
  destruct (Logger_init n) as [logger|f] eqn:Hl.
  2:{ destruct (String.eqb d "1"); [discriminate|].
      destruct (Main.load_dotenv environ dotenv !! "SENTRY_DSN") as [dsn|];
        [|discriminate].
      destruct (sentry_sdk_init dsn) as [[]|f']; discriminate. }
  destruct (SlackBot_init token logger) as [b|f] eqn:Hb.
  2:{ destruct (String.eqb d "1"); [discriminate|].
      destruct (Main.load_dotenv environ dotenv !! "SENTRY_DSN") as [dsn|];
        [|discriminate].
      destruct (sentry_sdk_init dsn) as [[]|f']; discriminate. }
  destruct (String.eqb d "1") eqn:Hd.
  - intros [= <- <- <-]. cbn.
    split; [reflexivity|]. split; [reflexivity|].
    exists d, token, n, logger.
    split; [reflexivity|]. split; [symmetry; exact Hd|].
    split; [reflexivity|]. split; [reflexivity|].
    split; [exact Hl|]. split; [exact Hb|].
    split; [reflexivity|discriminate].
  - destruct (Main.load_dotenv environ dotenv !! "SENTRY_DSN") as [dsn|] eqn:Hs;
      [|discriminate].
    destruct (sentry_sdk_init dsn) as [[]|f] eqn:Hi; [|discriminate].
    intros [= <- <- <-]. cbn.
    split; [reflexivity|]. split; [reflexivity|].
    exists d, token, n, logger.
    split; [reflexivity|]. split; [symmetry; exact Hd|].
    split; [reflexivity|]. split; [reflexivity|].
    split; [exact Hl|]. split; [exact Hb|].
    split; [discriminate|]. intros _. exists dsn.
    split; [reflexivity|]. split; [exact Hi|reflexivity].
Qed.

(** X17. What is enough for the start-up to reach [run]: [DEBUG] and the
    token are set, the capacity expression returns, the two constructors
    return and, outside debug mode, [SENTRY_DSN] is set and Sentry
    accepts it. The effects are then, in this order: Sentry (outside
    debug mode), the logger, the bot. *)
Theorem startup_succeeds (environ dotenv : gmap string string)
    (d dsn token : string) (n : Z) (logger : L) (bot : B) :
  let env := Main.load_dotenv environ dotenv in
  env !! "DEBUG" = Some d ->
  (String.eqb d "1" = false ->
   env !! "SENTRY_DSN" = Some dsn /\ sentry_sdk_init dsn = Returns tt) ->
  env !! "SLACK_OAUTH_TOKEN" = Some token ->
  log_last_n_commands env = Returns n ->
  Logger_init n = Returns logger ->
  SlackBot_init token logger = Returns bot ->
  Main.main sentry_sdk_init Logger_init SlackBot_init environ dotenv
  = (((if String.eqb d "1" then [] else [Main.SentryInit dsn])
      ++ [Main.LoggerInit n; Main.SlackBotInit token])%list,
     Returns (bot, {| Main.host := ""; Main.port := 5556;
                      Main.debug := String.eqb d "1" |})).
Proof.
  intros env Hd Hs Ht Hn Hl Hb. rewrite main_unfold. cbn zeta.
  fold env. rewrite Hd, init_sentry_unfold, new_bot_unfold, Ht, Hn, Hl, Hb.
  destruct (String.eqb d "1"); [reflexivity|].
  destruct (Hs eq_refl) as [-> ->]. reflexivity.
Qed.

(** X18. The process environment wins over the [.env] file: what the
    file says about a variable that is already set has no influence on
    the start-up. *)
Theorem startup_environment_wins_over_dotenv
    (environ dotenv : gmap string string) :
  Main.main sentry_sdk_init Logger_init SlackBot_init environ dotenv
  = Main.main sentry_sdk_init Logger_init SlackBot_init environ
      (dotenv ∖ environ).
Proof.
  rewrite !main_unfold. cbn zeta.
  rewrite load_dotenv_difference. reflexivity.
Qed.

End StartupOutcome.

(** ** The further properties at work on the sample data *)

Lemma webhook_undecodable_body_witness :
  manage_github_events (Dict := SlackBot.Message)
    Samples.failing_parse Samples.failing_inform
    Samples.undecodable_request (0, [])
  = ((0, []), Raises (HTTPError 400 "Invalid JSON")).
Proof.
  apply (webhook_undecodable_body Samples.failing_parse Samples.failing_inform
           Samples.undecodable_request 0 [] "pull_request"
           (HTTPError 400 "Invalid JSON")).
  - vm_compute; reflexivity.
  - reflexivity.
Defined.

Lemma webhook_body_not_json_reaches_parse_witness :
  exists rest : list (call GitHubEvent),
    (manage_github_events (Dict := SlackBot.Message)
       Samples.failing_parse Samples.failing_inform
       Samples.bodyless_request (0, [])).1.2
    = ([] ++ CallParse "ping" JNull :: rest)%list.
Proof.
  apply (webhook_body_not_json_reaches_parse
           Samples.failing_parse Samples.failing_inform
           Samples.bodyless_request 0 [] "ping").
  - vm_compute; reflexivity.
  - reflexivity.
Defined.

Lemma webhook_parse_fault_propagates_witness :
  manage_github_events (Dict := SlackBot.Message)
    Samples.failing_parse Samples.failing_inform
    Examples.opened_request (0, [])
  = ((0, [CallParse "pull_request" (Examples.pull_request_payload "opened")]),
     Raises (OtherFault "AttributeError")).
Proof.
  apply (webhook_parse_fault_propagates
           Samples.failing_parse Samples.failing_inform
           Examples.opened_request 0 [] "pull_request"
           (Examples.pull_request_payload "opened")
           (OtherFault "AttributeError")).
  - vm_compute; reflexivity.
  - reflexivity.
  - reflexivity.
Defined.

Lemma webhook_inform_fault_propagates_witness :
  manage_github_events (Dict := SlackBot.Message)
    Samples.accepting_parse Samples.failing_inform
    Examples.opened_request (0, [])
  = ((1, [CallParse "pull_request" (Examples.pull_request_payload "opened");
          CallInform Examples.opened_event]),
     Raises (OtherFault "SlackApiError")).
Proof.
  apply (webhook_inform_fault_propagates
           Samples.accepting_parse Samples.failing_inform
           Examples.opened_request 0 [] "pull_request"
           (Examples.pull_request_payload "opened")
           Examples.opened_event (OtherFault "SlackApiError")).
  - vm_compute; reflexivity.
  - reflexivity.
  - reflexivity.
  - reflexivity.
Defined.

Lemma webhook_calls_are_bounded_witness :
  exists new : list (call GitHubEvent),
    (manage_github_events (Dict := SlackBot.Message)
       Samples.accepting_parse Samples.failing_inform
       Examples.opened_request (0, [])).1.2 = ([] ++ new)%list /\
    length new <= 2.
Proof.
  destruct (webhook_calls_are_bounded (Dict := SlackBot.Message)
              Samples.accepting_parse Samples.failing_inform
              Examples.opened_request 0 [])
    as (new & Heq & Hlen & _).
  exists new. split; [exact Heq|exact Hlen].
Defined.


Lemma webhook_returns_none_witness :
  (webhook Examples.registry Examples.mapping Examples.opened_request
     (Examples.offline, [])).2 = Returns None /\
  (None : option SlackBot.Message) = None.
Proof.
  split; [vm_compute; reflexivity|].
  apply (webhook_returns_none
           (fun event_type raw_json =>
              Returns (GitHubPayloadParser.parse Examples.registry event_type raw_json))
           (SlackBot.inform Examples.mapping)
           Examples.opened_request Examples.offline [] None).
  vm_compute; reflexivity.
Defined.

Lemma startup_debug_skips_sentry_witness :
  Main.main Samples.sentry_ok Samples.logger_ok Samples.bot_ok
    Samples.development ∅
  = Main.main Samples.sentry_ok Samples.logger_ok Samples.bot_ok
      (delete "SENTRY_DSN" Samples.development) (delete "SENTRY_DSN" ∅).
Proof.
  apply (startup_debug_skips_sentry Samples.sentry_ok Samples.logger_ok
           Samples.bot_ok Samples.development ∅).
  vm_compute; reflexivity.
Defined.

Lemma startup_production_needs_sentry_dsn_witness :
  Main.main Samples.sentry_ok Samples.logger_ok Samples.bot_ok
    {[ "DEBUG" := "true" ]} ∅
  = ([], Raises (KeyError "SENTRY_DSN")).
Proof.
  apply (startup_production_needs_sentry_dsn Samples.sentry_ok
           Samples.logger_ok Samples.bot_ok {[ "DEBUG" := "true" ]} ∅ "true").
  - vm_compute; reflexivity.
  - discriminate.
  - vm_compute; reflexivity.
Defined.

Lemma startup_bot_built_from_environment_witness :
  Main.load_dotenv Samples.production ∅ !! "SLACK_OAUTH_TOKEN" = Some "xoxb-1".
Proof.
  apply (startup_bot_built_from_environment Samples.sentry_ok
           Samples.logger_ok Samples.bot_ok Samples.production ∅ "xoxb-1").
  vm_compute. do 2 apply list_elem_of_further. apply list_elem_of_here.
Defined.

Lemma startup_success_inversion_witness :
  Main.main Samples.sentry_ok Samples.logger_ok Samples.bot_ok
    Samples.production ∅
  = ([Main.SentryInit "https://key@sentry.example/1"; Main.LoggerInit 50;
      Main.SlackBotInit "xoxb-1"],
     Returns (("xoxb-1", 50%Z),
              {| Main.host := ""; Main.port := 5556; Main.debug := false |})) /\
  Main.port {| Main.host := ""; Main.port := 5556; Main.debug := false |}
  = 5556%Z.
Proof.
  split; [vm_compute; reflexivity|].
  apply (startup_success_inversion Samples.sentry_ok Samples.logger_ok
           Samples.bot_ok Samples.production ∅
           [Main.SentryInit "https://key@sentry.example/1"; Main.LoggerInit 50;
            Main.SlackBotInit "xoxb-1"]
           ("xoxb-1", 50%Z)
           {| Main.host := ""; Main.port := 5556; Main.debug := false |}).
  vm_compute; reflexivity.
Defined.

Lemma startup_succeeds_witness :
  Main.main Samples.sentry_ok Samples.logger_ok Samples.bot_ok
    {[ "SLACK_OAUTH_TOKEN" := "xoxb-1" ]} Samples.dotenv_file
  = ([Main.LoggerInit 7; Main.SlackBotInit "xoxb-1"],
     Returns (("xoxb-1", 7%Z),
              {| Main.host := ""; Main.port := 5556; Main.debug := true |})).
Proof.
  apply (startup_succeeds Samples.sentry_ok Samples.logger_ok Samples.bot_ok
           {[ "SLACK_OAUTH_TOKEN" := "xoxb-1" ]} Samples.dotenv_file
           "1" "" "xoxb-1" 7%Z 7%Z ("xoxb-1", 7%Z)).
  - vm_compute; reflexivity.
  - discriminate.
  - vm_compute; reflexivity.
  - vm_compute; reflexivity.
  - reflexivity.
  - reflexivity.
Defined.
